(** * mcp-hub: the simple-tool MCP server

    A shallow embedding of
    [examples/servers/simple-tool/mcp_simple_tool/server.py]: the two fetch
    helpers, the tool-call handler and the tool catalog, together with the
    properties the specification states about them.

    The Python code is effectful: it opens an HTTP client, awaits a GET and
    raises exceptions.  The embedding threads an explicit world (the trace of
    what was handed to the HTTP client library, and the state of the remote
    side) through a small state-and-exception monad.  The HTTP client
    library itself (httpx) is an external collaborator and enters as an
    interface, the class [HttpLibrary]. *)

From Stdlib Require Import ZArith Lia.
From stdpp Require Import base option strings list gmap.

Local Open Scope string_scope.
Local Open Scope Z_scope.
Local Set Warnings "-register-all".

(** ** Data *)

(** JSON values, as the argument bag and the input schemas hold them.  An
    object keeps its fields in insertion order, as a Python [dict] does.
    Numbers are integers here; no definition below looks inside a number. *)
Inductive json : Type :=
| JNull
| JBool (b : bool)
| JNum (n : Z)
| JStr (s : string)
| JArr (items : list json)
| JObj (fields : list (string * json)).

(** [types.TextContent(type=..., text=...)], the one variant of
    [types.ContentBlock] the server builds. *)
Inductive ContentBlock : Type :=
| TextContent (type : string) (text : string).

(** [types.Tool(name=..., title=..., description=..., inputSchema=...)]. *)
Record Tool : Type := mkTool {
  name : string;
  title : string;
  description : string;
  inputSchema : json
}.

(** What the handler reads off an [httpx.Response]: [status_code] and the
    decoded body [text]. *)
Record Response : Type := mkResponse {
  status_code : Z;
  text : string
}.

(** The exceptions that travel through the handler. *)
Inductive exn : Type :=
| ValueError (msg : string)
| KeyError (key : string)
| HTTPStatusError (response : Response)
| LibraryError (what : string).

(** The two ways the source builds its HTTP client. *)
Inductive ClientFactory : Type :=
| create_mcp_http_client   (* mcp.shared._httpx_utils.create_mcp_http_client *)
| AsyncClient.             (* httpx.AsyncClient *)

Record Client : Type := mkClient {
  factory : ClientFactory;
  headers : list (string * string)
}.

(** What the program does to the outside, in order. *)
Inductive Event : Type :=
| Opened (c : Client)
| Get (c : Client) (url : json)
| Closed (c : Client).

Inductive result (A : Type) : Type :=
| Ok (a : A)
| Raise (e : exn).
Arguments Ok {A} a.
Arguments Raise {A} e.

(** Python's [k in d] on a dict with string keys. *)
Definition contains (d : gmap string json) (k : string) : bool :=
  bool_decide (is_Some (d !! k)).



(** ** The HTTP client library *)

(** What the program needs of httpx and of the remote side: the state of
    the remote side; what a GET through a given client to a given url
    yields there (a response, or an exception raised by [client.get]
    itself), with the remote state afterwards; and the exception
    [Response.raise_for_status] raises for a response, if any. *)
Class HttpLibrary : Type := {
  Remote : Type;
  respond : Client → json → Remote → result Response * Remote;
  raise_for_status : Response → option exn
}.

(** The documented contract of [Response.raise_for_status]: silent on a
    success status (2xx), [HTTPStatusError] holding the response on a
    client or server error status (4xx, 5xx). *)
Class RaiseForStatusContract (L : HttpLibrary) : Prop := {
  raise_for_status_success r :
    200 ≤ status_code r ≤ 299 → raise_for_status r = None;
  raise_for_status_error r :
    400 ≤ status_code r ≤ 599 → raise_for_status r = Some (HTTPStatusError r)
}.


(** ** The program *)

Section Server.

Context {L : HttpLibrary}.

Record World : Type := mkWorld {
  trace : list Event;
  remote : Remote
}.

Definition M (A : Type) : Type := World → result A * World.

Definition ret {A} (a : A) : M A := λ w, (Ok a, w).
Definition raise {A} (e : exn) : M A := λ w, (Raise e, w).
Definition bind {A B} (m : M A) (k : A → M B) : M B :=
  λ w, match m w with
       | (Ok a, w') => k a w'
       | (Raise e, w') => (Raise e, w')
       end.

Notation "x <- m ;; k" := (bind m (λ x, k))
  (at level 100, m at next level, right associativity).
Notation "m ;;; k" := (bind m (λ _, k))
  (at level 100, right associativity).

Definition emit (ev : Event) (w : World) : World :=
  {| trace := trace w ++ [ev]; remote := remote w |}.

(** [async with c as client: body]: the client is closed on every exit
    path, an exception in the body included.  Building, entering and
    leaving the client are taken not to raise. *)
Definition async_with {A} (c : Client) (body : Client → M A) : M A :=
  λ w, let '(r, w') := body c (emit (Opened c) w) in (r, emit (Closed c) w').

(** [await client.get(url)] *)
Definition get (client : Client) (url : json) : M Response :=
  λ w, let '(r, rm) := respond client url (remote w) in
       (r, {| trace := trace w ++ [Get client url]; remote := rm |}).

(** [response.raise_for_status()] *)
Definition check_status (response : Response) : M unit :=
  match raise_for_status response with
  | Some e => raise e
  | None => ret tt
  end.

(** [arguments["url"]] *)
Definition getitem (d : gmap string json) (k : string) : M json :=
  match d !! k with
  | Some v => ret v
  | None => raise (KeyError k)
  end.

Definition user_agent : list (string * string) :=
  [("User-Agent", "MCP Test Server (github.com/modelcontextprotocol/python-sdk)")].

Definition fetch_website (url : json) : M (list ContentBlock) :=
  let headers := user_agent in
  async_with (mkClient create_mcp_http_client headers) (λ client,
    response <- get client url ;;
    check_status response ;;;
    ret [TextContent "text" (text response)]).

Definition fetch_website_via_ssl (url : json) : M (list ContentBlock) :=
  let headers := user_agent in
  async_with (mkClient AsyncClient headers) (λ client,
    response <- get client url ;;
    check_status response ;;;
    ret [TextContent "text" (text response)]).

(** The handler registered with [@app.call_tool()].  Python falls off the
    end of the [if]/[elif] chain with [None]; hence the [option]. *)
Definition handle_tool_call (name : string) (arguments : gmap string json)
  : M (option (list ContentBlock)) :=
  if bool_decide (name ∉ ["fetch"; "fetch_web_content_via_ssl"]) then
    raise (ValueError ("Unknown tool: " +:+ name))
  else if negb (contains arguments "url") then
    raise (ValueError "Missing required argument 'url'")
  else if bool_decide (name = "fetch") then
    url <- getitem arguments "url" ;;
    blocks <- fetch_website url ;;
    ret (Some blocks)
  else if bool_decide (name = "fetch_web_content_via_ssl") then
    url <- getitem arguments "url" ;;
    blocks <- fetch_website_via_ssl url ;;
    ret (Some blocks)
  else
    ret None.

(** The handler registered with [@app.list_tools()]. *)
Definition list_tools : M (list Tool) :=
  ret [ mkTool "fetch" "Website Fetcher"
          "Fetches a website and returns its content"
          (JObj [ ("type", JStr "object");
                  ("required", JArr [JStr "url"]);
                  ("properties",
                   JObj [ ("url",
                           JObj [ ("type", JStr "string");
                                  ("description", JStr "URL to fetch") ]) ]) ]);
        mkTool "fetch_web_content_via_ssl" "Website Fetcher via SSL"
          "Fetches a website and returns its content using a secure SSL connection"
          (JObj [ ("type", JStr "object");
                  ("required", JArr [JStr "url"]);
                  ("properties",
                   JObj [ ("url",
                           JObj [ ("type", JStr "string");
                                  ("description", JStr "URL to fetch over SSL") ]) ]) ]) ].

End Server.

Arguments World L : clear implicits.
Arguments M L A : clear implicits.

(** ** Reading a JSON schema *)

(** [d.get(k)] on a JSON object: the first field named [k]. *)
Fixpoint assoc (k : string) (fields : list (string * json)) : option json :=
  match fields with
  | [] => None
  | (k', v) :: rest => if String.eqb k k' then Some v else assoc k rest
  end.

Definition field (k : string) (v : json) : option json :=
  match v with
  | JObj fields => assoc k fields
  | _ => None
  end.

(** A schema of type object whose required fields are exactly [k], declared
    a string property. *)
Definition requires_string (k : string) (schema : json) : Prop :=
  field "type" schema = Some (JStr "object")
  ∧ field "required" schema = Some (JArr [JStr k])
  ∧ ∃ props prop,
      field "properties" schema = Some props
      ∧ field k props = Some prop
      ∧ field "type" prop = Some (JStr "string").

(** ** The session around the handlers *)

(** Modelled from the spec: the session loop is [Server.run] of the mcp
    library, which [main] calls and which is not under src/.  Section 4.4 of
    the specification gives its state machine: while initialized, a session
    serves "list tools" (always succeeds) and "call tool"; a tool call that
    fails with UnknownTool or MissingArgument (both a [ValueError] in the
    handler) or with UpstreamHTTPError (httpx's [HTTPStatusError]) is
    answered with a request-level error and the session stays open; any
    other failure is fatal and closes the session; the session closes when
    the inbound stream ends. *)
Inductive SessionState : Type :=
| uninitialized
| initialized
| closed.

Inductive Request : Type :=
| ListToolsRequest
| CallToolRequest (name : string) (arguments : gmap string json).

Inductive Reply : Type :=
| ToolList (tools : list Tool)
| ToolResult (content : list ContentBlock)
| RequestError (e : exn).

(** The upstream status a request-level error carries, if it carries one. *)
Definition upstream_status (e : exn) : option Z :=
  match e with
  | HTTPStatusError response => Some (status_code response)
  | _ => None
  end.

Definition request_level (e : exn) : bool :=
  match e with
  | ValueError _ | HTTPStatusError _ => true
  | KeyError _ | LibraryError _ => false
  end.

Section Session.

Context {L : HttpLibrary}.

(** Modelled from the spec: one request served by an initialized session
    (section 4.4); the state afterwards, the reply written to the peer if
    any, and the world afterwards. *)
Definition serve (req : Request) (w : World L)
  : SessionState * option Reply * World L :=
  match req with
  | ListToolsRequest =>
      match list_tools w with
      | (Ok tools, w') => (initialized, Some (ToolList tools), w')
      | (Raise _, w') => (closed, None, w')
      end
  | CallToolRequest name arguments =>
      match handle_tool_call name arguments w with
      | (Ok (Some content), w') => (initialized, Some (ToolResult content), w')
      | (Ok None, w') => (closed, None, w')
      | (Raise e, w') =>
          if request_level e then (initialized, Some (RequestError e), w')
          else (closed, None, w')
      end
  end.

(** Modelled from the spec: the loop of an initialized session over its
    inbound stream, one request at a time, replies in request order
    (section 4.4).  It stops when the stream ends or at the first fatal
    failure; either way the session is closed then. *)
Fixpoint session_loop (inbound : list Request) (w : World L)
  : list Reply * World L :=
  match inbound with
  | [] => ([], w)
  | req :: rest =>
      match serve req w with
      | (initialized, Some reply, w') =>
          let '(replies, w'') := session_loop rest w' in
          (reply :: replies, w'')
      | (_, Some reply, w') => ([reply], w')
      | (_, None, w') => ([], w')
      end
  end.

End Session.

(** ** A small remote side to run the program against *)

Module Fixture.

(** The remote side counts the GETs it has answered.  One url answers
    200 with body "hello", one answers 404, any other string does not
    connect, and what is not a string is refused by the client. *)
Definition answer (c : Client) (url : json) (served : nat)
  : result Response * nat :=
  match url with
  | JStr u =>
      if String.eqb u "http://example.test/hello" then
        (Ok (mkResponse 200 "hello"), S served)
      else if String.eqb u "http://example.test/missing" then
        (Ok (mkResponse 404 "not found"), S served)
      else (Raise (LibraryError "ConnectError"), served)
  | _ => (Raise (LibraryError "TypeError"), served)
  end.

(** Every status outside 200..299 raises. *)
Definition status_check (r : Response) : option exn :=
  if (200 <=? status_code r) && (status_code r <=? 299) then None
  else Some (HTTPStatusError r).

#[export] Instance library : HttpLibrary :=
  {| Remote := nat; respond := answer; raise_for_status := status_check |}.

Definition start : World library := mkWorld [] 0%nat.

Definition hello : json := JStr "http://example.test/hello".
Definition missing : json := JStr "http://example.test/missing".

End Fixture.

(** ** A remote side that redirects *)

(** [create_mcp_http_client] builds its client to follow redirects; a plain
    [httpx.AsyncClient] does not.  At a url that redirects, the first sees
    the page the redirect leads to, the second the redirect itself. *)
Module Redirecting.

Definition answer (c : Client) (url : json) (served : nat)
  : result Response * nat :=
  match factory c with
  | create_mcp_http_client => (Ok (mkResponse 200 "hello"), S (S served))
  | AsyncClient => (Ok (mkResponse 302 ""), S served)
  end.

#[export] Instance library : HttpLibrary :=
  {| Remote := nat; respond := answer; raise_for_status := Fixture.status_check |}.

Definition start : World library := mkWorld [] 0%nat.

Definition moved : json := JStr "http://example.test/moved".

End Redirecting.

(** ** The specification's view of a fetch *)

(** Which client a valid tool name fetches through (the last two branches
    of [handle_tool_call]). *)
Definition factory_of (name : string) : ClientFactory :=
  if bool_decide (name = "fetch") then create_mcp_http_client else AsyncClient.

(** A handler result out of a fetch result. *)
Definition returned {A} (r : result A) : result (option A) :=
  match r with
  | Ok a => Ok (Some a)
  | Raise e => Raise e
  end.

(** Section 4.2 in one definition, the client being a parameter: one GET
    to the url through a client that carries the fixed header; the call
    fails with what the GET raises or with what the status check raises;
    otherwise it returns exactly one text block holding the body. *)
Definition fetch_with {L : HttpLibrary} (f : ClientFactory) (url : json)
  (w : World L) : result (list ContentBlock) * World L :=
  let c := mkClient f user_agent in
  let '(got, rm) := respond c url (remote w) in
  let w' := mkWorld (trace w ++ [Opened c; Get c url; Closed c]) rm in
  match got with
  | Raise e => (Raise e, w')
  | Ok r =>
      match raise_for_status r with
      | Some e => (Raise e, w')
      | None => (Ok [TextContent "text" (text r)], w')
      end
  end.

(** ** Reading a trace *)

(** The clients a trace leaves open: one more for each [Opened], one less
    for each [Closed]. *)
Fixpoint open_clients (t : list Event) : Z :=
  match t with
  | [] => 0
  | Opened _ :: rest => open_clients rest + 1
  | Closed _ :: rest => open_clients rest - 1
  | Get _ _ :: rest => open_clients rest
  end.

(** The GETs of a trace, oldest first: which client, which url. *)
Fixpoint gets (t : list Event) : list (Client * json) :=
  match t with
  | [] => []
  | Get c url :: rest => (c, url) :: gets rest
  | _ :: rest => gets rest
  end.

(** The keys a JSON schema lists under "required". *)
Definition required_keys (schema : json) : list string :=
  match field "required" schema with
  | Some (JArr items) =>
      omap (λ item, match item with JStr k => Some k | _ => None end) items
  | _ => []
  end.

(** ** The chat client, [client-sentiment/app.py] *)

(** The script connects to an MCP server, builds an agent over the server's
    tools and launches a chat interface; a [finally] disconnects.  All it
    calls is library code (dotenv, smolagents, gradio), which enters as the
    class [App.Library]; the embedding keeps the order of the calls, the
    binding of the module-level name [mcp_client], and the flow of
    exceptions through [try]/[finally]. *)
Module App.

Inductive exn : Type :=
| NameError (name : string)
| LibraryError (what : string).

Inductive result (A : Type) : Type :=
| Ok (a : A)
| Raise (e : exn).
Arguments Ok {A} a.
Arguments Raise {A} e.

(** The libraries: the objects they build are opaque; every call acts on
    the outside world and may raise.  [os.getenv] only reads. *)
Class Library : Type := {
  External : Type;
  Client : Type;
  RemoteTool : Type;
  Model : Type;
  Agent : Type;
  Answer : Type;
  History : Type;
  Demo : Type;
  load_dotenv : External → result bool * External;
  MCPClient : list (string * string) → External → result Client * External;
  get_tools : Client → External → result (list RemoteTool) * External;
  disconnect : Client → External → result unit * External;
  getenv : string → External → option string;
  InferenceClientModel : option string → External → result Model * External;
  CodeAgent :
    list RemoteTool → Model → list string → External → result Agent * External;
  run : Agent → string → External → result Answer * External;
  str : Answer → string;
  ChatInterface :
    (string → History → External → result string * External) →
    string → list string → string → string → External → result Demo * External;
  launch : Demo → External → result unit * External
}.

(** The library calls the script makes, as they appear in the source. *)
Inductive Call : Type :=
| CallLoadDotenv
| CallMCPClient (params : list (string * string))
| CallGetTools
| CallInferenceClientModel (token : option string)
| CallCodeAgent (additional_authorized_imports : list string)
| CallChatInterface (title : string)
| CallLaunch
| CallDisconnect.

#[export] Instance Call_eq_dec : EqDecision Call.
Proof. solve_decision. Defined.

Section Script.

Context {L : Library}.

(** The module-level name [mcp_client] (unbound until assigned), the calls
    made so far, and the outside world. *)
Record State : Type := mkState {
  mcp_client : option Client;
  calls : list Call;
  external : External
}.

Definition M (A : Type) : Type := State → result A * State.

Definition ret {A} (a : A) : M A := λ s, (Ok a, s).
Definition raise {A} (e : exn) : M A := λ s, (Raise e, s).
Definition bind {A B} (m : M A) (k : A → M B) : M B :=
  λ s, match m s with
       | (Ok a, s') => k a s'
       | (Raise e, s') => (Raise e, s')
       end.

Notation "x <- m ;; k" := (bind m (λ x, k))
  (at level 100, m at next level, right associativity).
Notation "m ;;; k" := (bind m (λ _, k))
  (at level 100, right associativity).

(** [try: body finally: handler]: the handler runs however the body ends;
    what it raises replaces the outcome of the body. *)
Definition try_finally {A} (body : M A) (handler : M unit) : M A :=
  λ s, let '(r, s') := body s in
       match handler s' with
       | (Ok _, s'') => (r, s'')
       | (Raise e, s'') => (Raise e, s'')
       end.

(** A library call, noted in [calls]. *)
Definition call {A} (c : Call) (f : External → result A * External) : M A :=
  λ s, let '(r, x) := f (external s) in
       (r, {| mcp_client := mcp_client s;
              calls := calls s ++ [c];
              external := x |}).

(** [mcp_client = value] *)
Definition assign_mcp_client (value : Client) : M unit :=
  λ s, (Ok tt, {| mcp_client := Some value;
                  calls := calls s;
                  external := external s |}).

(** Reading the name [mcp_client]: a [NameError] while it is unbound. *)
Definition read_mcp_client : M Client :=
  λ s, match mcp_client s with
       | Some value => (Ok value, s)
       | None => (Raise (NameError "mcp_client"), s)
       end.

(** [os.getenv(key)] *)
Definition os_getenv (key : string) : M (option string) :=
  λ s, (Ok (getenv key (external s)), s).

(** [lambda message, history: str(agent.run(message))] *)
Definition chat (agent : Agent) (message : string) (history : History)
  : External → result string * External :=
  λ x, match run agent message x with
       | (Ok answer, x') => (Ok (str answer), x')
       | (Raise e, x') => (Raise e, x')
       end.

Definition params : list (string * string) :=
  [("url", "http://localhost:7860/gradio_api/mcp/sse")].

Definition imports : list string := ["json"; "ast"; "urllib"; "base64"].

(** The script, from [load_dotenv()] on; the imports around it are taken
    to succeed. *)
Definition script : M unit :=
  call CallLoadDotenv load_dotenv ;;;
  try_finally
    (value <- call (CallMCPClient params) (MCPClient params) ;;
     assign_mcp_client value ;;;
     client <- read_mcp_client ;;
     tools <- call CallGetTools (get_tools client) ;;
     token <- os_getenv "HUGGINGFACE_API_TOKEN" ;;
     model <- call (CallInferenceClientModel token) (InferenceClientModel token) ;;
     agent <- call (CallCodeAgent imports) (CodeAgent tools model imports) ;;
     demo <- call (CallChatInterface "Agent with MCP Tools")
               (ChatInterface (chat agent) "messages"
                  ["Analyze the sentiment of the following text 'This is awesome'"]
                  "Agent with MCP Tools"
                  "This is a simple agent that uses MCP tools to answer questions.") ;;
     call CallLaunch (launch demo))
    (client <- read_mcp_client ;;
     call CallDisconnect (disconnect client)).

(** The state the interpreter starts the script in. *)
Definition start (x : External) : State :=
  {| mcp_client := None; calls := []; external := x |}.

End Script.

Arguments State L : clear implicits.
Arguments M L A : clear implicits.

(** A small outside world: the MCP server is up or down, and with the
    server up the launch may still fail. *)
Module Fixture.

Inductive Outside : Type := ServerDown | ServerUp | ServerUpPortTaken.

#[export] Instance library : Library := {|
  External := Outside;
  Client := unit;
  RemoteTool := string;
  Model := unit;
  Agent := unit;
  Answer := string;
  History := list string;
  Demo := unit;
  load_dotenv := λ x, (Ok false, x);
  MCPClient := λ _ x,
    match x with
    | ServerDown => (Raise (LibraryError "ConnectionError"), x)
    | _ => (Ok tt, x)
    end;
  get_tools := λ _ x, (Ok ["sentiment_analysis"], x);
  disconnect := λ _ x, (Ok tt, x);
  getenv := λ _ _, None;
  InferenceClientModel := λ _ x, (Ok tt, x);
  CodeAgent := λ _ _ _ x, (Ok tt, x);
  run := λ _ message x, (Ok message, x);
  str := λ answer, answer;
  ChatInterface := λ _ _ _ _ _ x, (Ok tt, x);
  launch := λ _ x,
    match x with
    | ServerUpPortTaken => (Raise (LibraryError "OSError"), x)
    | _ => (Ok tt, x)
    end
|}.

End Fixture.

End App.

(** ** The two transports and [main] *)

(** [main] serves the handlers over one of two transports.  The servers
    themselves (uvicorn, anyio, the mcp transports, [app.run]) are library
    code and enter as the class [Transport.Library]. *)
Module Transport.

(** [Route(path, endpoint=..., methods=...)] and [Mount(path, app=...)];
    the two callables the source routes to are named, not run. *)
Inductive Callable : Type :=
| handle_sse_endpoint
| handle_post_message.

Inductive BaseRoute : Type :=
| Route (path : string) (endpoint : Callable) (methods : list string)
| Mount (path : string) (app : Callable).

(** [Starlette(debug=..., routes=...)] *)
Record Starlette : Type := mkStarlette {
  debug : bool;
  routes : list BaseRoute
}.

(** [starlette.responses.Response()] *)
Inductive Response : Type :=
| EmptyResponse.

(** The libraries.  Entering [sse.connect_sse(...)] or [stdio_server()]
    yields the pair of streams or raises; [run read write] is
    [app.run(read, write, app.create_initialization_options())];
    [uvicorn_run] is [uvicorn.run(app, host=..., port=...)], which returns
    when the server stops. *)
Class Library : Type := {
  External : Type;
  Stream : Type;
  Request : Type;
  connect_sse : Request → External → result (Stream * Stream) * External;
  stdio_server : External → result (Stream * Stream) * External;
  run : Stream → Stream → External → result unit * External;
  uvicorn_run : Starlette → string → Z → External → result unit * External
}.

Section Main.

Context {L : Library}.

Inductive Event : Type :=
| Acquired (read write : Stream)
| Ran (read write : Stream)
| Released (read write : Stream)
| Served (app : Starlette) (host : string) (port : Z).

Record World : Type := mkWorld {
  events : list Event;
  external : External
}.

Definition M (A : Type) : Type := World → result A * World.

Definition ret {A} (a : A) : M A := λ w, (Ok a, w).
Definition raise {A} (e : exn) : M A := λ w, (Raise e, w).
Definition bind {A B} (m : M A) (k : A → M B) : M B :=
  λ w, match m w with
       | (Ok a, w') => k a w'
       | (Raise e, w') => (Raise e, w')
       end.

Notation "x <- m ;; k" := (bind m (λ x, k))
  (at level 100, m at next level, right associativity).
Notation "m ;;; k" := (bind m (λ _, k))
  (at level 100, right associativity).

Definition emit (ev : Event) (w : World) : World :=
  {| events := events w ++ [ev]; external := external w |}.

(** [async with enter as streams: body]: if entering raises, the body is
    not run and there is nothing to release; once entered, the streams are
    released however the body ends. *)
Definition async_with {A}
    (enter : External → result (Stream * Stream) * External)
    (body : Stream * Stream → M A) : M A :=
  λ w, match enter (external w) with
       | (Raise e, x) => (Raise e, {| events := events w; external := x |})
       | (Ok streams, x) =>
           let entered :=
             {| events := events w ++ [Acquired streams.1 streams.2];
                external := x |} in
           let '(r, w') := body streams entered in
           (r, emit (Released streams.1 streams.2) w')
       end.

(** [await app.run(streams[0], streams[1], ...)] *)
Definition app_run (read write : Stream) : M unit :=
  λ w, let '(r, x) := run read write (external w) in
       (r, {| events := events w ++ [Ran read write]; external := x |}).

Definition handle_sse (request : Request) : M Response :=
  async_with (connect_sse request) (λ streams,
    app_run streams.1 streams.2) ;;;
  ret EmptyResponse.

Definition arun : M unit :=
  async_with stdio_server (λ streams,
    app_run streams.1 streams.2).

(** [anyio.run(arun)] runs the coroutine to its end. *)
Definition anyio_run {A} (coroutine : M A) : M A := coroutine.

(** The command click makes of [main].  [port] and [transport] are the
    options [--port] and [--transport] as given on the command line, if
    given: the port defaults to 8000, the transport to "stdio"; a transport
    that is not one of the choices "stdio" and "sse" makes click raise
    BadParameter before the body runs. *)
Definition main (port : option Z) (transport : option string) : M Z :=
  let port := default 8000 port in
  let transport := default "stdio" transport in
  if bool_decide (transport ∉ ["stdio"; "sse"]) then
    raise (LibraryError "BadParameter")
  else if bool_decide (transport = "sse") then
    let starlette_app :=
      {| debug := true;
         routes := [ Route "/sse" handle_sse_endpoint ["GET"];
                     Mount "/messages/" handle_post_message ] |} in
    (λ w, let '(r, x) := uvicorn_run starlette_app "127.0.0.1" port (external w) in
          (r, {| events := events w ++ [Served starlette_app "127.0.0.1" port];
                 external := x |})) ;;;
    ret 0
  else
    anyio_run arun ;;;
    ret 0.

(** The pairs of streams a trace holds: one more for each [Acquired], one
    less for each [Released]. *)
Fixpoint held (t : list Event) : Z :=
  match t with
  | [] => 0
  | Acquired _ _ :: rest => held rest + 1
  | Released _ _ :: rest => held rest - 1
  | _ :: rest => held rest
  end.

Definition is_served (ev : Event) : bool :=
  match ev with Served _ _ _ => true | _ => false end.

End Main.

Arguments World L : clear implicits.
Arguments Event L : clear implicits.
Arguments M L A : clear implicits.

(** A process whose session fails half-way. *)
Module Fixture.

#[export] Instance library : Library := {|
  External := nat;
  Stream := string;
  Request := string;
  connect_sse := λ request sessions, (Ok (request +:+ "/in", request +:+ "/out"), S sessions);
  stdio_server := λ sessions, (Ok ("stdin", "stdout"), S sessions);
  run := λ _ _ sessions, (Raise (LibraryError "BrokenPipeError"), sessions);
  uvicorn_run := λ _ _ _ sessions, (Ok tt, sessions)
|}.

Definition start : World library := mkWorld [] 0%nat.

End Fixture.

End Transport.

(** * Properties *)

Section Properties.

Context {L : HttpLibrary}.

Implicit Types (name : string) (arguments : gmap string json)
  (url : json) (w : World L).

(** *** The two fetchers *)

Ltac run_fetch :=
  cbv [fetch_website fetch_website_via_ssl fetch_with
       async_with bind get check_status emit ret raise];
  cbn [trace remote];
  repeat match goal with
    | |- context [respond ?c ?u ?r] => destruct (respond c u r) as [[?|?] ?]
    | |- context [raise_for_status ?r] => destruct (raise_for_status r)
    end;
  cbn [trace remote]; rewrite <- ?app_assoc; reflexivity.

Lemma fetch_website_spec url w :
  fetch_website url w = fetch_with create_mcp_http_client url w.
Proof. run_fetch. Qed.

Lemma fetch_website_via_ssl_spec url w :
  fetch_website_via_ssl url w = fetch_with AsyncClient url w.
Proof. run_fetch. Qed.

(** *** The handler, branch by branch *)

Lemma valid_name_cases name :
  name ∈ ["fetch"; "fetch_web_content_via_ssl"] →
  name = "fetch" ∨ name = "fetch_web_content_via_ssl".
Proof.
  intros H. apply list_elem_of_In in H. simpl in H.
  intuition congruence.
Qed.

Lemma handle_unknown name arguments w :
  name ∉ ["fetch"; "fetch_web_content_via_ssl"] →
  handle_tool_call name arguments w
  = (Raise (ValueError ("Unknown tool: " +:+ name)), w).
Proof.
  intros H. unfold handle_tool_call.
  rewrite bool_decide_eq_true_2 by exact H. reflexivity.
Qed.

Lemma handle_missing name arguments w :
  name ∈ ["fetch"; "fetch_web_content_via_ssl"] →
  arguments !! "url" = None →
  handle_tool_call name arguments w
  = (Raise (ValueError "Missing required argument 'url'"), w).
Proof.
  intros Hin Hurl. unfold handle_tool_call, contains.
  rewrite bool_decide_eq_false_2 by (intros Hnot; exact (Hnot Hin)).
  rewrite Hurl.
  rewrite (bool_decide_eq_false_2 (is_Some None)) by (intros [? ?]; discriminate).
  reflexivity.
Qed.

Lemma handle_present name arguments url w :
  name ∈ ["fetch"; "fetch_web_content_via_ssl"] →
  arguments !! "url" = Some url →
  handle_tool_call name arguments w
  = (returned (fetch_with (factory_of name) url w).1,
     (fetch_with (factory_of name) url w).2).
Proof.
  intros Hin Hurl. unfold handle_tool_call, contains, getitem.
  rewrite bool_decide_eq_false_2 by (intros Hnot; exact (Hnot Hin)).
  rewrite Hurl.
  rewrite (bool_decide_eq_true_2 (is_Some (Some url))) by eauto.
  cbn [negb]. unfold factory_of.
  destruct (valid_name_cases _ Hin) as [-> | ->].
  - rewrite !(bool_decide_eq_true_2 ("fetch" = "fetch")) by reflexivity.
    unfold bind, ret. rewrite fetch_website_spec.
    destruct (fetch_with _ _ _) as [[?|?] ?]; reflexivity.
  - rewrite !(bool_decide_eq_false_2 ("fetch_web_content_via_ssl" = "fetch"))
      by discriminate.
    rewrite bool_decide_eq_true_2 by reflexivity.
    unfold bind, ret. rewrite fetch_website_via_ssl_spec.
    destruct (fetch_with _ _ _) as [[?|?] ?]; reflexivity.
Qed.

Lemma handle_depends_on_url name (a1 a2 : gmap string json) w :
  a1 !! "url" = a2 !! "url" →
  handle_tool_call name a1 w = handle_tool_call name a2 w.
Proof.
  intros H. unfold handle_tool_call, contains, getitem. rewrite H. reflexivity.
Qed.

Lemma fetch_with_trace f url w :
  trace (fetch_with f url w).2
  = (trace w ++ [Opened (mkClient f user_agent); Get (mkClient f user_agent) url;
                 Closed (mkClient f user_agent)])%list.
Proof.
  unfold fetch_with. destruct (respond _ _ _) as [[r|e] rm]; cbn.
  - destruct (raise_for_status r); reflexivity.
  - reflexivity.
Qed.

(** The fall-through of the [if]/[elif] chain is dead code: the handler
    never returns [None]. *)
Lemma handle_never_none name arguments w :
  (handle_tool_call name arguments w).1 ≠ Ok None.
Proof.
  destruct (decide (name ∈ ["fetch"; "fetch_web_content_via_ssl"])) as [Hin|Hout].
  - destruct (arguments !! "url") as [url|] eqn:Hurl.
    + rewrite (handle_present _ _ url) by assumption. cbn [fst].
      destruct (fetch_with _ _ _).1; discriminate.
    + rewrite handle_missing by assumption. discriminate.
  - rewrite handle_unknown by assumption. discriminate.
Qed.

(** The names the handler accepts are the names of the catalog. *)
Lemma accepted_names_are_catalog_names w :
  name <$> match (list_tools w).1 with Ok tools => tools | Raise _ => [] end
  = ["fetch"; "fetch_web_content_via_ssl"].
Proof. reflexivity. Qed.

(** *** The session on a failed call *)

Lemma serve_request_error name arguments w e w' :
  handle_tool_call name arguments w = (Raise e, w') →
  request_level e = true →
  serve (CallToolRequest name arguments) w
  = (initialized, Some (RequestError e), w').
Proof.
  intros Hcall Hlevel. unfold serve. rewrite Hcall, Hlevel. reflexivity.
Qed.

Lemma session_loop_continues req rest w reply w' :
  serve req w = (initialized, Some reply, w') →
  session_loop (req :: rest) w
  = (reply :: (session_loop rest w').1, (session_loop rest w').2).
Proof.
  intros Hserve. cbn [session_loop]. rewrite Hserve.
  destruct (session_loop rest w'). reflexivity.
Qed.

(** *** Unknown tools *)

(** C1. A tool name outside "fetch" and "fetch_web_content_via_ssl" makes
    the handler raise ValueError("Unknown tool: <name>"), whatever the
    argument bag, and leaves the world as it was.  The session answers with
    that request-level error, stays initialized, and serves the rest of its
    inbound stream as it would have without the call. *)
Theorem unknown_tool_is_rejected name arguments w :
  name ∉ ["fetch"; "fetch_web_content_via_ssl"] →
  let e := ValueError ("Unknown tool: " +:+ name) in
  handle_tool_call name arguments w = (Raise e, w)
  ∧ serve (CallToolRequest name arguments) w
    = (initialized, Some (RequestError e), w)
  ∧ ∀ rest,
      session_loop (CallToolRequest name arguments :: rest) w
      = (RequestError e :: (session_loop rest w).1, (session_loop rest w).2).
Proof.
  intros Hout e.
  assert (Hcall : handle_tool_call name arguments w = (Raise e, w))
    by exact (handle_unknown _ _ _ Hout).
  assert (Hserve : serve (CallToolRequest name arguments) w
                   = (initialized, Some (RequestError e), w))
    by (apply serve_request_error; [exact Hcall | reflexivity]).
  split; [exact Hcall | split; [exact Hserve |]].
  intros rest. apply session_loop_continues, Hserve.
Qed.

(** C9. The name is checked before the argument bag: for a name outside
    "fetch" and "fetch_web_content_via_ssl" the handler raises the
    unknown-tool error for every bag, the empty one and any other without
    "url" included, and never the missing-argument error. *)
Theorem unknown_tool_checked_before_arguments name arguments w :
  name ∉ ["fetch"; "fetch_web_content_via_ssl"] →
  (handle_tool_call name arguments w).1
  = Raise (ValueError ("Unknown tool: " +:+ name))
  ∧ (handle_tool_call name ∅ w).1
    = Raise (ValueError ("Unknown tool: " +:+ name))
  ∧ (handle_tool_call name arguments w).1
    ≠ Raise (ValueError "Missing required argument 'url'").
Proof.
  intros Hout. rewrite !handle_unknown by exact Hout. cbn [fst].
  repeat split. intros Heq. injection Heq as Heq. discriminate Heq.
Qed.

(** *** Missing url *)

(** C2. For either valid tool name, an argument bag without the key "url"
    makes the handler raise ValueError("Missing required argument 'url'");
    the two names behave alike there. *)
Theorem missing_url_is_rejected name arguments w :
  name ∈ ["fetch"; "fetch_web_content_via_ssl"] →
  arguments !! "url" = None →
  handle_tool_call name arguments w
  = (Raise (ValueError "Missing required argument 'url'"), w)
  ∧ handle_tool_call "fetch" arguments w
    = handle_tool_call "fetch_web_content_via_ssl" arguments w.
Proof.
  intros Hin Hurl. split.
  - apply handle_missing; assumption.
  - rewrite !handle_missing; [reflexivity | | exact Hurl | | exact Hurl].
    + apply list_elem_of_In. simpl. tauto.
    + apply list_elem_of_In. simpl. tauto.
Qed.

(** *** The catalog *)

(** C3. [list_tools] returns the same two descriptors in every world and
    changes nothing: first "fetch", then "fetch_web_content_via_ssl", each
    with an input schema of type object whose one required property "url"
    is a string.  Any two invocations return equal catalogs. *)
Theorem list_tools_fixed_catalog :
  ∃ t1 t2 : Tool,
    (∀ w, list_tools w = (Ok [t1; t2], w))
    ∧ (∀ w w', (list_tools w).1 = (list_tools w').1)
    ∧ name t1 = "fetch"
    ∧ name t2 = "fetch_web_content_via_ssl"
    ∧ requires_string "url" (inputSchema t1)
    ∧ requires_string "url" (inputSchema t2).
Proof.
  eexists _, _. split; [intros w; unfold list_tools, ret; reflexivity |].
  split; [reflexivity |].
  cbn [name inputSchema]. unfold requires_string.
  repeat split; try reflexivity; eexists _, _; repeat split; reflexivity.
Qed.

(** *** What the handler reads of the argument bag *)

(** C10. The handler looks at nothing of the argument bag but the key
    "url": for a valid tool name (and for any other), two bags that hold the
    same value under "url" give the same outcome in every respect (result or
    exception, trace, remote state), and a key other than "url" added to a
    bag changes nothing. *)
Theorem handler_reads_only_url name (a1 a2 : gmap string json) url w :
  a1 !! "url" = Some url →
  a2 !! "url" = Some url →
  handle_tool_call name a1 w = handle_tool_call name a2 w
  ∧ ∀ (k : string) (v : json),
      k ≠ "url" → handle_tool_call name (<[k := v]> a1) w = handle_tool_call name a1 w.
Proof.
  intros H1 H2. split.
  - apply handle_depends_on_url. congruence.
  - intros k v Hk. apply handle_depends_on_url.
    apply lookup_insert_ne. exact Hk.
Qed.

(** *** The two tools against each other *)

(** C6, as the code has it.  [fetch_website] and [fetch_website_via_ssl]
    are one and the same fetch, [fetch_with], at two clients.  Each opens
    its client with the one header User-Agent: MCP Test Server
    (github.com/modelcontextprotocol/python-sdk), issues one GET to the url
    and closes the client; each turns the answer of its client into its
    result the same way: what the GET or the status check raises is raised,
    and otherwise the single text block of the body is returned.  Results
    and remote state coincide wherever the remote side answers the two
    clients alike. *)
Theorem fetch_tools_differ_only_in_client url w :
  let header :=
    [("User-Agent", "MCP Test Server (github.com/modelcontextprotocol/python-sdk)")] in
  let mcp := mkClient create_mcp_http_client header in
  let plain := mkClient AsyncClient header in
  let outcome (got : result Response) : result (list ContentBlock) :=
    match got with
    | Raise e => Raise e
    | Ok r =>
        match raise_for_status r with
        | Some e => Raise e
        | None => Ok [TextContent "text" (text r)]
        end
    end in
  fetch_website url w = fetch_with create_mcp_http_client url w
  ∧ fetch_website_via_ssl url w = fetch_with AsyncClient url w
  ∧ (fetch_website url w).1 = outcome (respond mcp url (remote w)).1
  ∧ (fetch_website_via_ssl url w).1 = outcome (respond plain url (remote w)).1
  ∧ trace (fetch_website url w).2
    = (trace w ++ [Opened mcp; Get mcp url; Closed mcp])%list
  ∧ trace (fetch_website_via_ssl url w).2
    = (trace w ++ [Opened plain; Get plain url; Closed plain])%list
  ∧ (respond mcp url (remote w) = respond plain url (remote w) →
     (fetch_website url w).1 = (fetch_website_via_ssl url w).1
     ∧ remote (fetch_website url w).2 = remote (fetch_website_via_ssl url w).2).
Proof.
  intros header mcp plain outcome.
  rewrite fetch_website_spec, fetch_website_via_ssl_spec.
  split; [reflexivity | split; [reflexivity |]].
  split.
  { unfold fetch_with. change (mkClient create_mcp_http_client user_agent) with mcp.
    destruct (respond mcp url (remote w)) as [[r|e] rm]; cbn;
      [destruct (raise_for_status r) |]; reflexivity. }
  split.
  { unfold fetch_with. change (mkClient AsyncClient user_agent) with plain.
    destruct (respond plain url (remote w)) as [[r|e] rm]; cbn;
      [destruct (raise_for_status r) |]; reflexivity. }
  split; [apply fetch_with_trace | split; [apply fetch_with_trace |]].
  intros Hsame. unfold fetch_with.
  change (mkClient create_mcp_http_client user_agent) with mcp.
  change (mkClient AsyncClient user_agent) with plain. rewrite Hsame.
  destruct (respond plain url (remote w)) as [[r|e] rm]; cbn.
  - destruct (raise_for_status r); split; reflexivity.
  - split; reflexivity.
Qed.

(** *** What is checked before the network is touched *)


(** *** Fetching *)

Section Contract.

Context {contract : RaiseForStatusContract L}.

Lemma fetch_with_success f url w r rm :
  respond (mkClient f user_agent) url (remote w) = (Ok r, rm) →
  200 ≤ status_code r ≤ 299 →
  (fetch_with f url w).1 = Ok [TextContent "text" (text r)].
Proof.
  intros Hget Hstatus. unfold fetch_with. rewrite Hget.
  rewrite (raise_for_status_success r Hstatus). reflexivity.
Qed.

Lemma fetch_with_error f url w r rm :
  respond (mkClient f user_agent) url (remote w) = (Ok r, rm) →
  400 ≤ status_code r ≤ 599 →
  (fetch_with f url w).1 = Raise (HTTPStatusError r).
Proof.
  intros Hget Hstatus. unfold fetch_with. rewrite Hget.
  rewrite (raise_for_status_error r Hstatus). reflexivity.
Qed.

(** C4. A call of a valid tool with a "url" argument whose GET is answered
    with a success status (200..299) returns exactly one block, a text block
    whose text is the body of the response. *)
Theorem successful_fetch_returns_body name arguments url w r rm :
  name ∈ ["fetch"; "fetch_web_content_via_ssl"] →
  arguments !! "url" = Some url →
  respond (mkClient (factory_of name) user_agent) url (remote w) = (Ok r, rm) →
  200 ≤ status_code r ≤ 299 →
  (handle_tool_call name arguments w).1 = Ok (Some [TextContent "text" (text r)]).
Proof.
  intros Hin Hurl Hget Hstatus.
  rewrite (handle_present _ _ url) by assumption. cbn [fst].
  rewrite (fetch_with_success _ _ _ r rm) by assumption. reflexivity.
Qed.

(** C5. A call of a valid tool whose GET is answered with a client or
    server error status (400..599) fails with HTTPStatusError holding that
    response, hence its status.  The session answers with that
    request-level error, stays initialized and goes on with the rest of its
    inbound stream. *)
Theorem upstream_error_is_reported name arguments url w r rm :
  name ∈ ["fetch"; "fetch_web_content_via_ssl"] →
  arguments !! "url" = Some url →
  respond (mkClient (factory_of name) user_agent) url (remote w) = (Ok r, rm) →
  400 ≤ status_code r ≤ 599 →
  let e := HTTPStatusError r in
  let w' := (handle_tool_call name arguments w).2 in
  (handle_tool_call name arguments w).1 = Raise e
  ∧ upstream_status e = Some (status_code r)
  ∧ serve (CallToolRequest name arguments) w
    = (initialized, Some (RequestError e), w')
  ∧ ∀ rest,
      session_loop (CallToolRequest name arguments :: rest) w
      = (RequestError e :: (session_loop rest w').1, (session_loop rest w').2).
Proof.
  intros Hin Hurl Hget Hstatus e w'.
  assert (Hcall : handle_tool_call name arguments w = (Raise e, w')).
  { subst w'. rewrite (handle_present _ _ url) by assumption. cbn [fst snd].
    rewrite (fetch_with_error _ _ _ r rm) by assumption. reflexivity. }
  assert (Hserve : serve (CallToolRequest name arguments) w
                   = (initialized, Some (RequestError e), w'))
    by (apply serve_request_error; [exact Hcall | reflexivity]).
  split; [rewrite Hcall; reflexivity | split; [reflexivity |]].
  split; [exact Hserve |].
  intros rest. apply session_loop_continues, Hserve.
Qed.

End Contract.

End Properties.

(** * The properties at work *)

(** Each property above that rests on a hypothesis, applied to the fixture. *)

(** The fixture keeps the contract of [raise_for_status]. *)
Lemma fixture_contract : RaiseForStatusContract Fixture.library.
Proof.
  split; intros r Hstatus; cbn; unfold Fixture.status_check.
  - replace ((200 <=? status_code r) && (status_code r <=? 299)) with true;
      [reflexivity |].
    symmetry. apply andb_true_intro. split; apply Z.leb_le; lia.
  - replace ((200 <=? status_code r) && (status_code r <=? 299)) with false;
      [reflexivity |].
    symmetry. apply andb_false_intro2. apply Z.leb_gt. lia.
Defined.

Lemma listed (name : string) :
  bool_decide (name ∈ ["fetch"; "fetch_web_content_via_ssl"]) = true →
  name ∈ ["fetch"; "fetch_web_content_via_ssl"].
Proof. apply bool_decide_eq_true_1. Defined.

Lemma not_listed (name : string) :
  bool_decide (name ∈ ["fetch"; "fetch_web_content_via_ssl"]) = false →
  name ∉ ["fetch"; "fetch_web_content_via_ssl"].
Proof. apply bool_decide_eq_false_1. Defined.

(** A call of the tool "shell", which is not in the catalog. *)
Lemma unknown_tool_is_rejected_witness :
  ("shell" ∉ ["fetch"; "fetch_web_content_via_ssl"])
  ∧ handle_tool_call "shell" {[ "url" := Fixture.hello ]} Fixture.start
    = (Raise (ValueError "Unknown tool: shell"), Fixture.start)
  ∧ serve (CallToolRequest "shell" {[ "url" := Fixture.hello ]}) Fixture.start
    = (initialized, Some (RequestError (ValueError "Unknown tool: shell")),
       Fixture.start).
Proof.
  assert (Hout : "shell" ∉ ["fetch"; "fetch_web_content_via_ssl"])
    by (apply not_listed; vm_compute; reflexivity).
  destruct (unknown_tool_is_rejected "shell" {[ "url" := Fixture.hello ]}
              Fixture.start Hout) as (Hcall & Hserve & _).
  split; [exact Hout | split; [exact Hcall | exact Hserve]].
Defined.

(** The empty name with the empty bag: unknown tool, not missing argument. *)
Lemma unknown_tool_checked_before_arguments_witness :
  ("" ∉ ["fetch"; "fetch_web_content_via_ssl"])
  ∧ (handle_tool_call "" ∅ Fixture.start).1 = Raise (ValueError "Unknown tool: ")
  ∧ (handle_tool_call "" ∅ Fixture.start).1
    ≠ Raise (ValueError "Missing required argument 'url'").
Proof.
  assert (Hout : "" ∉ ["fetch"; "fetch_web_content_via_ssl"])
    by (apply not_listed; vm_compute; reflexivity).
  destruct (unknown_tool_checked_before_arguments "" ∅ Fixture.start Hout)
    as (Hcall & _ & Hnot).
  split; [exact Hout | split; [exact Hcall | exact Hnot]].
Defined.

(** A bag that spells the key "uri". *)
Lemma missing_url_is_rejected_witness :
  "fetch_web_content_via_ssl" ∈ ["fetch"; "fetch_web_content_via_ssl"]
  ∧ ({[ "uri" := Fixture.hello ]} : gmap string json) !! "url" = None
  ∧ handle_tool_call "fetch_web_content_via_ssl" {[ "uri" := Fixture.hello ]}
      Fixture.start
    = (Raise (ValueError "Missing required argument 'url'"), Fixture.start).
Proof.
  assert (Hin : "fetch_web_content_via_ssl" ∈ ["fetch"; "fetch_web_content_via_ssl"])
    by (apply listed; vm_compute; reflexivity).
  assert (Hurl : ({[ "uri" := Fixture.hello ]} : gmap string json) !! "url" = None)
    by (vm_compute; reflexivity).
  split; [exact Hin | split; [exact Hurl |]].
  exact (proj1 (missing_url_is_rejected "fetch_web_content_via_ssl" _
                  Fixture.start Hin Hurl)).
Defined.

(** An extra key "verbose" next to "url". *)
Lemma handler_reads_only_url_witness :
  handle_tool_call "fetch" {[ "url" := Fixture.hello ]} Fixture.start
  = handle_tool_call "fetch"
      (<[ "verbose" := JBool true ]> {[ "url" := Fixture.hello ]}) Fixture.start.
Proof.
  refine (proj1 (handler_reads_only_url "fetch" _ _ Fixture.hello Fixture.start _ _));
    vm_compute; reflexivity.
Defined.

(** The fixture answers both clients alike, so both fetchers fail alike on
    the url that answers 404. *)
Lemma fetch_tools_differ_only_in_client_witness :
  (fetch_website Fixture.missing Fixture.start).1
  = (fetch_website_via_ssl Fixture.missing Fixture.start).1.
Proof.
  destruct (fetch_tools_differ_only_in_client Fixture.missing Fixture.start)
    as (_ & _ & _ & _ & _ & _ & Hsame).
  apply Hsame. reflexivity.
Defined.



(** The url that answers 200 with body "hello". *)
Lemma successful_fetch_returns_body_witness :
  (handle_tool_call "fetch" {[ "url" := Fixture.hello ]} Fixture.start).1
  = Ok (Some [TextContent "text" "hello"]).
Proof.
  apply (successful_fetch_returns_body (contract := fixture_contract)
           "fetch" _ Fixture.hello Fixture.start (mkResponse 200 "hello") 1%nat).
  - apply listed. vm_compute. reflexivity.
  - vm_compute. reflexivity.
  - vm_compute. reflexivity.
  - cbn. lia.
Defined.

(** The url that answers 404. *)
Lemma upstream_error_is_reported_witness :
  (handle_tool_call "fetch" {[ "url" := Fixture.missing ]} Fixture.start).1
  = Raise (HTTPStatusError (mkResponse 404 "not found"))
  ∧ upstream_status (HTTPStatusError (mkResponse 404 "not found")) = Some 404.
Proof.
  assert (Hin : "fetch" ∈ ["fetch"; "fetch_web_content_via_ssl"])
    by (apply listed; vm_compute; reflexivity).
  destruct (upstream_error_is_reported (contract := fixture_contract)
              "fetch" {[ "url" := Fixture.missing ]} Fixture.missing
              Fixture.start (mkResponse 404 "not found") 1%nat Hin)
    as (Hcall & Hstatus & _).
  - vm_compute. reflexivity.
  - vm_compute. reflexivity.
  - cbn. lia.
  - split; [exact Hcall | exact Hstatus].
Defined.

(** A session on the fixture: an unknown tool, a missing argument and a 404
    are each answered with an error, and the catalog and a fetch are served
    after them. *)
Example session_survives_failed_calls :
  (session_loop
     [ CallToolRequest "shell" ∅;
       CallToolRequest "fetch" ∅;
       CallToolRequest "fetch" {[ "url" := Fixture.missing ]};
       CallToolRequest "fetch_web_content_via_ssl" {[ "url" := Fixture.hello ]} ]
     Fixture.start).1
  = [ RequestError (ValueError "Unknown tool: shell");
      RequestError (ValueError "Missing required argument 'url'");
      RequestError (HTTPStatusError (mkResponse 404 "not found"));
      ToolResult [TextContent "text" "hello"] ].
Proof. vm_compute. reflexivity. Qed.

(** C6, as the specification has it, fails: the two tools do not return the
    same for every url.  At a url that redirects, "fetch" returns the page
    its client was led to, "fetch_web_content_via_ssl" fails on the
    redirect its client got. *)
Lemma redirect_tells_the_tools_apart :
  ¬ ∀ (url : json) (w : World Redirecting.library),
      (fetch_website url w).1 = (fetch_website_via_ssl url w).1.
Proof.
  intros Hsame.
  specialize (Hsame Redirecting.moved Redirecting.start).
  vm_compute in Hsame. discriminate Hsame.
Qed.

(** * More of the handler *)

Section Handler.

Context {L : HttpLibrary}.

Implicit Types (tool : string) (arguments : gmap string json)
  (url : json) (w : World L).

Lemma open_clients_app (t1 t2 : list Event) :
  open_clients (t1 ++ t2) = open_clients t1 + open_clients t2.
Proof.
  induction t1 as [|ev t1 IH]; [reflexivity |].
  destruct ev; cbn [app open_clients]; rewrite IH; lia.
Qed.

Lemma gets_app (t1 t2 : list Event) : gets (t1 ++ t2) = (gets t1 ++ gets t2)%list.
Proof.
  induction t1 as [|ev t1 IH]; [reflexivity |].
  destruct ev; cbn [app gets]; rewrite IH; reflexivity.
Qed.

(** A call either leaves the trace alone or appends one bracketed GET. *)
Lemma handle_trace tool arguments w :
  trace (handle_tool_call tool arguments w).2 = trace w
  ∨ ∃ url, arguments !! "url" = Some url
      ∧ trace (handle_tool_call tool arguments w).2
        = (trace w ++ [Opened (mkClient (factory_of tool) user_agent);
                       Get (mkClient (factory_of tool) user_agent) url;
                       Closed (mkClient (factory_of tool) user_agent)])%list.
Proof.
  destruct (decide (tool ∈ ["fetch"; "fetch_web_content_via_ssl"])) as [Hin|Hout].
  - destruct (arguments !! "url") as [url|] eqn:Hurl.
    + right. exists url. split; [reflexivity |].
      rewrite (handle_present _ _ url) by assumption. apply fetch_with_trace.
    + left. rewrite handle_missing by assumption. reflexivity.
  - left. rewrite handle_unknown by assumption. reflexivity.
Qed.

(** X2. Whenever the handler returns, it returns exactly one block, of type
    "text", holding the body of the response the GET got; and it returns
    only for a known name with "url" present, a GET that was answered and a
    status check that stayed silent.  It never returns [None]. *)
Theorem handler_returns_one_text_block tool arguments w content :
  (handle_tool_call tool arguments w).1 = Ok content →
  ∃ url r,
    tool ∈ ["fetch"; "fetch_web_content_via_ssl"]
    ∧ arguments !! "url" = Some url
    ∧ (respond (mkClient (factory_of tool) user_agent) url (remote w)).1 = Ok r
    ∧ raise_for_status r = None
    ∧ content = Some [TextContent "text" (text r)].
Proof.
  intros Hok.
  destruct (decide (tool ∈ ["fetch"; "fetch_web_content_via_ssl"])) as [Hin|Hout].
  - destruct (arguments !! "url") as [url|] eqn:Hurl.
    + rewrite (handle_present _ _ url) in Hok by assumption.
      cbn [fst] in Hok. unfold fetch_with in Hok.
      destruct (respond _ url (remote w)) as [[r|e'] rm] eqn:Hget; cbn [fst] in *.
      * destruct (raise_for_status r) as [e''|] eqn:Hcheck; cbn in Hok;
          [discriminate |].
        exists url, r. rewrite Hget. repeat split; try assumption; congruence.
      * cbn in Hok. discriminate.
    + rewrite handle_missing in Hok by assumption. discriminate.
  - rewrite handle_unknown in Hok by assumption. discriminate.
Qed.

(** X3. What the GET raises comes out of the handler unchanged: the status
    check is not consulted, the client is closed all the same, and the
    remote side is left as the GET left it. *)
Theorem get_failure_propagates tool arguments url w e rm :
  tool ∈ ["fetch"; "fetch_web_content_via_ssl"] →
  arguments !! "url" = Some url →
  respond (mkClient (factory_of tool) user_agent) url (remote w) = (Raise e, rm) →
  handle_tool_call tool arguments w
  = (Raise e,
     mkWorld (trace w ++ [Opened (mkClient (factory_of tool) user_agent);
                          Get (mkClient (factory_of tool) user_agent) url;
                          Closed (mkClient (factory_of tool) user_agent)]) rm).
Proof.
  intros Hin Hurl Hget. rewrite (handle_present _ _ url) by assumption.
  unfold fetch_with. rewrite Hget. reflexivity.
Qed.

(** X4. No call leaks a client or retries: for every name, bag, library
    and world, the trace after the call extends the trace before, leaves as
    many clients open as before, and holds at most one GET more; that GET
    carries the value under "url" as it is. *)
Theorem handler_leaks_no_client tool arguments w :
  let after := trace (handle_tool_call tool arguments w).2 in
  trace w `prefix_of` after
  ∧ open_clients after = open_clients (trace w)
  ∧ (gets after = gets (trace w)
     ∨ ∃ url, arguments !! "url" = Some url
         ∧ gets after
           = (gets (trace w) ++ [(mkClient (factory_of tool) user_agent, url)])%list).
Proof.
  intros after. subst after.
  destruct (handle_trace tool arguments w) as [-> | (url & Hurl & ->)].
  - split; [reflexivity | split; [reflexivity | left; reflexivity]].
  - split; [apply prefix_app_r; reflexivity |].
    split.
    + rewrite open_clients_app. cbn. lia.
    + right. exists url. split; [exact Hurl |]. rewrite gets_app. reflexivity.
Qed.

(** *** The handler against the catalog *)

Lemma trace_grew tool arguments url w :
  tool ∈ ["fetch"; "fetch_web_content_via_ssl"] →
  arguments !! "url" = Some url →
  (handle_tool_call tool arguments w).2 ≠ w.
Proof.
  intros Hin Hurl Hsame. apply (f_equal trace) in Hsame.
  rewrite (handle_present _ _ url) in Hsame by assumption.
  cbn [snd] in Hsame. rewrite fetch_with_trace in Hsame.
  apply (f_equal length) in Hsame. rewrite length_app in Hsame.
  cbn in Hsame. lia.
Qed.

Lemma catalog_names w tools :
  (list_tools w).1 = Ok tools →
  name <$> tools = ["fetch"; "fetch_web_content_via_ssl"].
Proof. intros Hlist. cbn in Hlist. injection Hlist as <-. reflexivity. Qed.

(** X5. The handler and the catalog agree on the names: the handler turns a
    call down as an unknown tool, the world untouched, exactly when the name
    is not one [list_tools] advertises. *)
Theorem unknown_exactly_when_not_advertised tool arguments w tools :
  (list_tools w).1 = Ok tools →
  handle_tool_call tool arguments w
  = (Raise (ValueError ("Unknown tool: " +:+ tool)), w)
  ↔ tool ∉ (name <$> tools).
Proof.
  intros Hlist. rewrite (catalog_names w tools Hlist). split.
  - intros Hcall Hin.
    destruct (arguments !! "url") as [url|] eqn:Hurl.
    + apply (trace_grew tool arguments url w Hin Hurl). rewrite Hcall. reflexivity.
    + rewrite handle_missing in Hcall by assumption.
      injection Hcall as Hmsg. discriminate Hmsg.
  - apply handle_unknown.
Qed.

(** X6. The handler and the catalog agree on the arguments: for every tool
    [list_tools] advertises, the handler turns a call down for a missing
    argument, the world untouched, exactly when the bag lacks a key that
    the tool's input schema lists as required. *)
Theorem missing_exactly_when_required_key_absent (t : Tool) arguments w tools :
  (list_tools w).1 = Ok tools →
  t ∈ tools →
  handle_tool_call (name t) arguments w
  = (Raise (ValueError "Missing required argument 'url'"), w)
  ↔ ∃ k, k ∈ required_keys (inputSchema t) ∧ arguments !! k = None.
Proof.
  intros Hlist Hin. cbn in Hlist. injection Hlist as <-.
  assert (Hvalid : name t ∈ ["fetch"; "fetch_web_content_via_ssl"]
                   ∧ required_keys (inputSchema t) = ["url"]).
  { apply list_elem_of_In in Hin. cbn [In] in Hin.
    destruct Hin as [<- | [<- | []]]; split;
      solve [reflexivity | apply list_elem_of_In; cbn; tauto]. }
  destruct Hvalid as [Hname ->]. split.
  - intros Hcall. exists "url". split; [apply list_elem_of_In; cbn; tauto |].
    destruct (arguments !! "url") as [url|] eqn:Hurl; [| reflexivity].
    exfalso. apply (trace_grew (name t) arguments url w Hname Hurl).
    rewrite Hcall. reflexivity.
  - intros (k & Hk & Hnone). apply list_elem_of_In in Hk. cbn [In] in Hk.
    destruct Hk as [<- | []]. apply handle_missing; assumption.
Qed.

(** X7. The unknown-tool error tells the names apart: two calls of unknown
    tools raise the same exception only if the two names are the same. *)
Theorem unknown_tool_error_names_the_tool tool tool' arguments arguments' w w' :
  tool ∉ ["fetch"; "fetch_web_content_via_ssl"] →
  tool' ∉ ["fetch"; "fetch_web_content_via_ssl"] →
  (handle_tool_call tool arguments w).1 = (handle_tool_call tool' arguments' w').1 →
  tool = tool'.
Proof.
  intros Hout Hout'. rewrite !handle_unknown by assumption. cbn [fst].
  intros Hsame. injection Hsame as Hmsg. exact Hmsg.
Qed.

End Handler.

(** * The chat client *)

Section Chat.

Context {L : App.Library}.

Ltac run_script :=
  unfold App.script, App.try_finally, App.bind, App.call,
    App.assign_mcp_client, App.read_mcp_client, App.os_getenv, App.start;
  cbn [App.mcp_client App.calls App.external].

(** Case analysis on the outcome of the next library call. *)
Ltac next_call :=
  match goal with
  | |- context [App.load_dotenv ?x] =>
      destruct (App.load_dotenv x) as [[?|?] ?]
  | |- context [App.MCPClient ?p ?x] =>
      destruct (App.MCPClient p x) as [[?|?] ?]
  | |- context [App.get_tools ?c ?x] =>
      destruct (App.get_tools c x) as [[?|?] ?]
  | |- context [App.InferenceClientModel ?t ?x] =>
      destruct (App.InferenceClientModel t x) as [[?|?] ?]
  | |- context [App.CodeAgent ?t ?m ?i ?x] =>
      destruct (App.CodeAgent t m i x) as [[?|?] ?]
  | |- context [App.ChatInterface ?f ?t ?e ?ti ?d ?x] =>
      destruct (App.ChatInterface f t e ti d x) as [[?|?] ?]
  | |- context [App.launch ?d ?x] =>
      destruct (App.launch d x) as [[?|?] ?]
  | |- context [App.disconnect ?c ?x] =>
      destruct (App.disconnect c x) as [[?|?] ?]
  end;
  cbn [App.mcp_client App.calls App.external].

Ltac not_among :=
  let H := fresh in
  intros H; apply list_elem_of_In in H; cbn in H; intuition discriminate.

(** X8. Once the connection to the MCP server stands, the script
    disconnects exactly once, as its last call, whichever later step fails
    or none: fetching the tools, building the model, the agent or the
    interface, or the launch. *)
Theorem disconnect_runs_once_after_connect x0 b x1 c x2 :
  App.load_dotenv x0 = (App.Ok b, x1) →
  App.MCPClient App.params x1 = (App.Ok c, x2) →
  ∃ before,
    App.calls (App.script (App.start x0)).2 = (before ++ [App.CallDisconnect])%list
    ∧ (App.CallDisconnect ∉ before)
    ∧ [App.CallLoadDotenv; App.CallMCPClient App.params] `prefix_of` before.
Proof.
  intros Hload Hconnect. run_script.
  rewrite Hload. cbn [App.mcp_client App.calls App.external].
  rewrite Hconnect. cbn [App.mcp_client App.calls App.external].
  repeat next_call;
    (eexists; split; [reflexivity |]); cbn [app];
    (split; [not_among | eexists; cbn [app]; reflexivity]).
Qed.

(** X9. If the connection to the MCP server fails, the [finally] finds the
    name [mcp_client] unbound: the script ends with that NameError in place
    of the connection's own exception, and nothing is disconnected; no
    later step is tried. *)
Theorem failed_connect_ends_in_name_error x0 b x1 e x2 :
  App.load_dotenv x0 = (App.Ok b, x1) →
  App.MCPClient App.params x1 = (App.Raise e, x2) →
  App.script (App.start x0)
  = (App.Raise (App.NameError "mcp_client"),
     App.mkState None [App.CallLoadDotenv; App.CallMCPClient App.params] x2).
Proof.
  intros Hload Hconnect. run_script.
  rewrite Hload. cbn [App.mcp_client App.calls App.external].
  rewrite Hconnect. reflexivity.
Qed.

(** X10. The script ends normally only after every one of its eight
    library calls has returned, made once each in the order of the source:
    the token for the model is what the environment holds, and the
    disconnect comes last. *)
Theorem clean_exit_ran_every_step x0 u :
  (App.script (App.start x0)).1 = App.Ok u →
  ∃ token,
    App.calls (App.script (App.start x0)).2
    = [ App.CallLoadDotenv;
        App.CallMCPClient App.params;
        App.CallGetTools;
        App.CallInferenceClientModel token;
        App.CallCodeAgent App.imports;
        App.CallChatInterface "Agent with MCP Tools";
        App.CallLaunch;
        App.CallDisconnect ]
    ∧ ∃ x, token = App.getenv "HUGGINGFACE_API_TOKEN" x.
Proof.
  run_script.
  repeat next_call; cbn [fst snd]; intros Hok; try discriminate Hok;
    eexists; (split; [reflexivity | eexists; reflexivity]).
Qed.

End Chat.

(** * The transports *)

Section Transports.

Context {L : Transport.Library}.

Lemma held_app (t1 t2 : list (Transport.Event L)) :
  Transport.held (t1 ++ t2) = Transport.held t1 + Transport.held t2.
Proof.
  induction t1 as [|ev t1 IH]; [reflexivity |].
  destruct ev; cbn [List.app Transport.held]; rewrite IH; lia.
Qed.

(** What one session over freshly acquired streams leaves in the trace. *)
Lemma async_with_run_events enter (w : Transport.World L) :
  let after :=
    Transport.events
      (Transport.async_with enter
         (λ streams, Transport.app_run streams.1 streams.2) w).2 in
  after = Transport.events w
  ∨ ∃ read write,
      after = (Transport.events w
               ++ [Transport.Acquired read write; Transport.Ran read write;
                   Transport.Released read write])%list.
Proof.
  unfold Transport.async_with, Transport.app_run, Transport.emit.
  destruct (enter _) as [[[read write]|e] x]; cbn.
  - right. exists read, write.
    destruct (Transport.run read write x) as [r x']; cbn.
    rewrite <- !app_assoc. reflexivity.
  - left. reflexivity.
Qed.

(** X11. Neither transport leaks its streams: after [handle_sse] and after
    [arun] the trace holds as many pairs of streams as before, whether
    entering the transport raised, the session raised or all went well; and
    the session ran at most once, on the pair acquired, read stream first. *)
Theorem transports_release_their_streams request (w : Transport.World L) :
  let sse := Transport.events (Transport.handle_sse request w).2 in
  let stdio := Transport.events (Transport.arun w).2 in
  Transport.held sse = Transport.held (Transport.events w)
  ∧ Transport.held stdio = Transport.held (Transport.events w)
  ∧ (sse = Transport.events w
     ∨ ∃ read write,
         sse = (Transport.events w
                ++ [Transport.Acquired read write; Transport.Ran read write;
                    Transport.Released read write])%list)
  ∧ (stdio = Transport.events w
     ∨ ∃ read write,
         stdio = (Transport.events w
                  ++ [Transport.Acquired read write; Transport.Ran read write;
                      Transport.Released read write])%list).
Proof.
  intros sse stdio.
  assert (Hsse : sse = Transport.events w
                 ∨ ∃ read write,
                     sse = (Transport.events w
                            ++ [Transport.Acquired read write;
                                Transport.Ran read write;
                                Transport.Released read write])%list).
  { subst sse. unfold Transport.handle_sse, Transport.bind, Transport.ret.
    pose proof (async_with_run_events (Transport.connect_sse request) w) as H.
    cbv zeta in H.
    destruct (Transport.async_with _ _ w) as [[[]|e] w']; exact H. }
  assert (Hstdio : stdio = Transport.events w
                   ∨ ∃ read write,
                       stdio = (Transport.events w
                                ++ [Transport.Acquired read write;
                                    Transport.Ran read write;
                                    Transport.Released read write])%list)
    by exact (async_with_run_events Transport.stdio_server w).
  repeat split; try assumption.
  - destruct Hsse as [-> | (read & write & ->)]; [reflexivity |].
    rewrite held_app. cbn. lia.
  - destruct Hstdio as [-> | (read & write & ->)]; [reflexivity |].
    rewrite held_app. cbn. lia.
Qed.

(** [handle_sse] answers with its empty response only after the transport
    was entered and the session over it ended normally; what entering or the
    session raises comes out of [handle_sse] instead. *)
Lemma handle_sse_answers_after_a_clean_session request (w : Transport.World L) :
  match Transport.connect_sse request (Transport.external w) with
  | (Raise e, _) => (Transport.handle_sse request w).1 = Raise e
  | (Ok (read, write), x) =>
      match (Transport.run read write x).1 with
      | Raise e => (Transport.handle_sse request w).1 = Raise e
      | Ok _ => (Transport.handle_sse request w).1 = Ok Transport.EmptyResponse
      end
  end.
Proof.
  unfold Transport.handle_sse, Transport.bind, Transport.ret,
    Transport.async_with, Transport.app_run, Transport.emit.
  destruct (Transport.connect_sse request _) as [[[read write]|e] x]; cbn.
  - destruct (Transport.run read write x) as [[[]|e] x']; reflexivity.
  - reflexivity.
Qed.

(** X12. [main] runs the transport chosen on the command line and nothing
    else.  A transport outside "stdio" and "sse" raises BadParameter with
    nothing run.  "stdio", also when no transport is given, runs the stdio
    session just as [arun] does: no HTTP server is started and the port
    plays no part.  "sse" starts the HTTP server on 127.0.0.1 at the port
    given, 8000 if none, with the routes GET /sse and /messages/, and
    acquires no stdio streams.  Whenever [main] returns, it returns 0. *)
Theorem main_runs_the_chosen_transport port transport (w : Transport.World L) :
  let chosen := default "stdio" transport in
  let after := (Transport.main port transport w).2 in
  ((chosen ∉ ["stdio"; "sse"]) →
   Transport.main port transport w = (Raise (LibraryError "BadParameter"), w))
  ∧ (chosen = "stdio" →
     after = (Transport.arun w).2
     ∧ filter Transport.is_served (Transport.events after)
       = filter Transport.is_served (Transport.events w)
     ∧ ∀ port', Transport.main port' transport w = Transport.main port transport w)
  ∧ (chosen = "sse" →
     Transport.events after
     = (Transport.events w
        ++ [Transport.Served
              (Transport.mkStarlette true
                 [ Transport.Route "/sse" Transport.handle_sse_endpoint ["GET"];
                   Transport.Mount "/messages/" Transport.handle_post_message ])
              "127.0.0.1" (default 8000 port)])%list)
  ∧ ∀ code, (Transport.main port transport w).1 = Ok code → code = 0.
Proof.
  intros chosen after. subst chosen after.
  assert (Hstdio : "stdio" ∈ ["stdio"; "sse"]) by apply list_elem_of_here.
  assert (Hsse : "sse" ∈ ["stdio"; "sse"])
    by (apply list_elem_of_In; cbn; tauto).
  split; [| split; [| split]].
  - intros Hout. unfold Transport.main. cbv zeta.
    rewrite bool_decide_eq_true_2 by exact Hout. reflexivity.
  - intros Hchosen.
    assert (Hmain : ∀ p,
               Transport.main p transport w
               = Transport.bind Transport.arun (λ _, Transport.ret 0) w).
    { intros p. unfold Transport.main. cbv zeta. rewrite Hchosen.
      rewrite bool_decide_eq_false_2 by (intros Hout; exact (Hout Hstdio)).
      rewrite bool_decide_eq_false_2 by discriminate. reflexivity. }
    rewrite Hmain. unfold Transport.bind, Transport.ret.
    pose proof (async_with_run_events Transport.stdio_server w) as Hevents.
    cbv zeta in Hevents. fold Transport.arun in Hevents.
    split; [| split].
    + destruct (Transport.arun w) as [[[]|e] w']; reflexivity.
    + assert (Hsnd : ∀ (r : result unit * Transport.World L),
                 (let (r0, w') := r in
                  match r0 with
                  | Ok _ => (Ok 0, w')
                  | Raise e => (Raise e, w')
                  end).2 = r.2)
        by (intros [[[]|e] w']; reflexivity).
      rewrite Hsnd.
      destruct Hevents as [-> | (read & write & ->)]; [reflexivity |].
      rewrite filter_app. cbn. apply app_nil_r.
    + intros port'. rewrite Hmain. reflexivity.
  - intros Hchosen. unfold Transport.main. cbv zeta. rewrite Hchosen.
    rewrite bool_decide_eq_false_2 by (intros Hout; exact (Hout Hsse)).
    rewrite bool_decide_eq_true_2 by reflexivity.
    unfold Transport.bind, Transport.ret.
    destruct (Transport.uvicorn_run _ _ _ _) as [[[]|e] x]; reflexivity.
  - intros code. unfold Transport.main. cbv zeta.
    destruct (bool_decide (default "stdio" transport ∉ ["stdio"; "sse"]));
      [discriminate |].
    destruct (bool_decide (default "stdio" transport = "sse")).
    + unfold Transport.bind, Transport.ret.
      destruct (Transport.uvicorn_run _ _ _ _) as [[[]|e] x]; cbn; congruence.
    + unfold Transport.anyio_run, Transport.bind, Transport.ret.
      destruct (Transport.arun w) as [[[]|e] w']; cbn; congruence.
Qed.

End Transports.

(** * The further properties at work *)

(** X2 on the fixture: the body "hello" comes back as one text block. *)
Lemma handler_returns_one_text_block_witness :
  ∃ url r,
    "fetch" ∈ ["fetch"; "fetch_web_content_via_ssl"]
    ∧ ({[ "url" := Fixture.hello ]} : gmap string json) !! "url" = Some url
    ∧ (respond (mkClient (factory_of "fetch") user_agent) url
         (remote Fixture.start)).1 = Ok r
    ∧ @raise_for_status Fixture.library r = None
    ∧ Some [TextContent "text" "hello"] = Some [TextContent "text" (text r)].
Proof.
  apply (handler_returns_one_text_block "fetch" {[ "url" := Fixture.hello ]}
           Fixture.start).
  vm_compute. reflexivity.
Defined.

(** X3 on the fixture: a url that does not connect. *)
Lemma get_failure_propagates_witness :
  (handle_tool_call "fetch_web_content_via_ssl"
     {[ "url" := JStr "http://nowhere.test/" ]} Fixture.start).1
  = Raise (LibraryError "ConnectError").
Proof.
  rewrite (get_failure_propagates "fetch_web_content_via_ssl"
             {[ "url" := JStr "http://nowhere.test/" ]}
             (JStr "http://nowhere.test/") Fixture.start
             (LibraryError "ConnectError") 0%nat).
  - reflexivity.
  - apply listed. vm_compute. reflexivity.
  - vm_compute. reflexivity.
  - vm_compute. reflexivity.
Defined.

(** X5 on the fixture: "shell" is not advertised. *)
Lemma unknown_exactly_when_not_advertised_witness :
  ∃ tools,
    (list_tools Fixture.start).1 = Ok tools
    ∧ (handle_tool_call "shell" ∅ Fixture.start
       = (Raise (ValueError ("Unknown tool: " +:+ "shell")), Fixture.start)
       ↔ "shell" ∉ (name <$> tools)).
Proof.
  eexists. split; [reflexivity |].
  apply (unknown_exactly_when_not_advertised "shell" ∅ Fixture.start).
  reflexivity.
Defined.

(** X6 on the fixture: the first tool of the catalog, a bag with "uri". *)
Lemma missing_exactly_when_required_key_absent_witness :
  ∃ tools t,
    (list_tools Fixture.start).1 = Ok tools
    ∧ t ∈ tools
    ∧ (handle_tool_call (name t) {[ "uri" := Fixture.hello ]} Fixture.start
       = (Raise (ValueError "Missing required argument 'url'"), Fixture.start)
       ↔ ∃ k, k ∈ required_keys (inputSchema t)
              ∧ ({[ "uri" := Fixture.hello ]} : gmap string json) !! k = None).
Proof.
  eexists _, _.
  split; [reflexivity |]. split; [apply list_elem_of_here |].
  eapply (missing_exactly_when_required_key_absent _ _ Fixture.start).
  - reflexivity.
  - apply list_elem_of_here.
Defined.

(** X7 on the fixture: the same unknown tool twice. *)
Lemma unknown_tool_error_names_the_tool_witness : "shell" = "shell".
Proof.
  apply (unknown_tool_error_names_the_tool "shell" "shell" ∅
           {[ "url" := Fixture.hello ]} Fixture.start Fixture.start).
  - apply not_listed. vm_compute. reflexivity.
  - apply not_listed. vm_compute. reflexivity.
  - reflexivity.
Defined.

(** X8 on the fixture: the server is up and the launch fails. *)
Lemma disconnect_runs_once_after_connect_witness :
  ∃ before,
    App.calls (App.script (App.start (L := App.Fixture.library) App.Fixture.ServerUpPortTaken)).2
    = (before ++ [App.CallDisconnect])%list
    ∧ (App.CallDisconnect ∉ before)
    ∧ [App.CallLoadDotenv; App.CallMCPClient App.params] `prefix_of` before.
Proof.
  apply (disconnect_runs_once_after_connect (L := App.Fixture.library)
           App.Fixture.ServerUpPortTaken false App.Fixture.ServerUpPortTaken
           tt App.Fixture.ServerUpPortTaken); reflexivity.
Defined.

(** X9 on the fixture: the server is down. *)
Lemma failed_connect_ends_in_name_error_witness :
  App.script (App.start (L := App.Fixture.library) App.Fixture.ServerDown)
  = (App.Raise (App.NameError "mcp_client"),
     @App.mkState App.Fixture.library None
       [App.CallLoadDotenv; App.CallMCPClient App.params] App.Fixture.ServerDown).
Proof.
  apply (failed_connect_ends_in_name_error (L := App.Fixture.library)
           App.Fixture.ServerDown false App.Fixture.ServerDown
           (App.LibraryError "ConnectionError") App.Fixture.ServerDown);
    reflexivity.
Defined.

(** X10 on the fixture: the server is up and the launch returns. *)
Lemma clean_exit_ran_every_step_witness :
  ∃ token,
    App.calls (App.script (App.start (L := App.Fixture.library) App.Fixture.ServerUp)).2
    = [ App.CallLoadDotenv;
        App.CallMCPClient App.params;
        App.CallGetTools;
        App.CallInferenceClientModel token;
        App.CallCodeAgent App.imports;
        App.CallChatInterface "Agent with MCP Tools";
        App.CallLaunch;
        App.CallDisconnect ]
    ∧ ∃ x, token = @App.getenv App.Fixture.library "HUGGINGFACE_API_TOKEN" x.
Proof.
  apply (clean_exit_ran_every_step (L := App.Fixture.library)
           App.Fixture.ServerUp tt).
  reflexivity.
Defined.

(** X12 on the fixture: a transport that is no choice, and no transport
    given at two ports. *)
Lemma main_runs_the_chosen_transport_witness :
  Transport.main (Some 8000) (Some "http") Transport.Fixture.start
  = (Raise (LibraryError "BadParameter"), Transport.Fixture.start)
  ∧ Transport.main (Some 9000) None Transport.Fixture.start
    = Transport.main None None Transport.Fixture.start.
Proof.
  split.
  - apply (proj1 (main_runs_the_chosen_transport (Some 8000) (Some "http")
                    Transport.Fixture.start)).
    apply (bool_decide_eq_false_1 ("http" ∈ ["stdio"; "sse"])).
    vm_compute. reflexivity.
  - destruct (main_runs_the_chosen_transport None None Transport.Fixture.start)
      as (_ & Hstdio & _).
    apply Hstdio. reflexivity.
Defined.
